(** * neverbounce_sdk.core: request/response contract of the API client

    A shallow embedding of [src/neverbounce_sdk/core.py].  Python objects
    live in a store and are named by references; every method is a
    computation in a state-and-exception monad over that store. *)

From stdpp Require Import gmap strings list fin_maps.
From Stdlib Require Import ZArith.

Set Warnings "-register-all".
Set Default Proof Using "Type".

Local Open Scope Z_scope.

(** ** Python values *)

Module Py.

(** The values that flow through the client: parsed JSON payloads,
    keyword arguments, credentials and authentication strategies.  A
    float is carried as its IEEE-754 binary64 bit pattern; the client
    never computes with one.  [VStaticTokenAuth token] is an instance of
    [auth.StaticTokenAuth] made from [token]. *)
Inductive PyVal : Type :=
| VNone
| VBool (b : bool)
| VInt (z : Z)
| VFloat (bits : Z)
| VStr (s : string)
| VList (l : list PyVal)
| VTuple (l : list PyVal)
| VDict (d : gmap string PyVal)
| VStaticTokenAuth (token : PyVal).

(** Python truth value testing ([bool(v)], [not v], [if v]). *)
Definition truthy (v : PyVal) : bool :=
  match v with
  | VNone => false
  | VBool b => b
  | VInt z => negb (z =? 0)
  | VFloat bits => negb ((bits =? 0) || (bits =? 2 ^ 63))
  | VStr s => negb (String.eqb s "")
  | VList l | VTuple l => negb (length l =? 0)%nat
  | VDict d => negb (size d =? 0)%nat
  | VStaticTokenAuth _ => true
  end.

(** [v == 'lit'] for a string literal: only an equal [str] compares equal. *)
Definition eq_str (v : PyVal) (lit : string) : bool :=
  match v with
  | VStr s => String.eqb s lit
  | _ => false
  end.

(** [int(flag)] for a boolean flag. *)
Definition int_of_bool (b : bool) : PyVal := VInt (Z.b2z b).

(** [dict(k1=v1, ...)]: later bindings win, as in a dict display. *)
Definition dict (items : list (string * PyVal)) : gmap string PyVal :=
  foldl (λ d kv, <[kv.1 := kv.2]> d) ∅ items.

End Py.
Export Py.

(** ** Exceptions and the monad of method bodies *)

Section Core.

(** The exception classes of the error taxonomy live in [exceptions.py];
    the client only looks them up by status string and instantiates them,
    so they are abstract here. *)
Context {ExcClass : Type}.

Inductive Exn : Type :=
| HTTPError (status_code : Z)
| ConnectionError
| ValueError
| KeyError (key : PyVal)
| TypeError
| AttributeError (msg : string)
| ReferenceError
| NeverBounceAPIException (payload : PyVal)
| APIError (cls : ExcClass) (message execution_time : PyVal).

Inductive Outcome (A : Type) : Type :=
| Return (a : A)
| Raise (e : Exn).
Global Arguments Return {A} a.
Global Arguments Raise {A} e.

(** *** The [requests] library, as far as the client uses it *)

Record Response : Type := mkResponse {
  status_code : Z;
  content : string;
  (** what [resp.json()] parses [content] to; [None] when it is malformed *)
  parsed : option PyVal
}.

Record Session : Type := mkSession {
  sess_auth : PyVal;
  sess_closed : bool
}.

Record Request : Type := mkRequest {
  (** the session the request goes through, or [None] for [requests.request] *)
  via : option nat;
  method : string;
  url : string;
  args : list PyVal;
  kwargs : gmap string PyVal
}.

(** *** The client object and the store *)

Record APICore : Type := mkAPICore {
  _auth : PyVal;
  session : option nat
}.

Record Store : Type := mkStore {
  clients : list APICore;
  sessions : list Session;
  (** requests sent so far, oldest first *)
  wire : list Request
}.

Definition M (A : Type) : Type := Store → Outcome A * Store.

Definition ret {A} (a : A) : M A := λ st, (Return a, st).
Definition raise {A} (e : Exn) : M A := λ st, (Raise e, st).
Definition bind {A B} (k : A → M B) (m : M A) : M B :=
  λ st, match m st with
        | (Return a, st') => k a st'
        | (Raise e, st') => (Raise e, st')
        end.
Definition lift {A} (o : Outcome A) : M A := λ st, (o, st).
(** Run [m] and hand its outcome over as a value ([try] ... [except]). *)
Definition attempt {A} (m : M A) : M (Outcome A) :=
  λ st, (Return (m st).1, (m st).2).

Global Instance M_ret : MRet M := @ret.
Global Instance M_bind : MBind M := @bind.

(** Attribute access through a reference.  A reference held by a running
    program always points into the store; [ReferenceError] stands for the
    accesses that cannot happen. *)
Definition the_client (self : nat) : M APICore :=
  λ st, match clients st !! self with
        | Some c => (Return c, st)
        | None => (Raise ReferenceError, st)
        end.

Definition the_session (r : nat) : M Session :=
  λ st, match sessions st !! r with
        | Some s => (Return s, st)
        | None => (Raise ReferenceError, st)
        end.

Definition update_client (self : nat) (f : APICore → APICore) : M unit :=
  λ st, (Return (),
         mkStore (alter f self (clients st)) (sessions st) (wire st)).

Definition update_session (r : nat) (f : Session → Session) : M unit :=
  λ st, (Return (),
         mkStore (clients st) (alter f r (sessions st)) (wire st)).

(** [data[key]] on an arbitrary value with a string key. *)
Definition getitem (data : PyVal) (key : string) : Outcome PyVal :=
  match data with
  | VDict d =>
      match d !! key with
      | Some v => Return v
      | None => Raise (KeyError (VStr key))
      end
  | _ => Raise TypeError
  end.

(** [data.get(key)]: [None] when the key is absent. *)
Definition dict_get (data : PyVal) (key : string) : Outcome PyVal :=
  match data with
  | VDict d => Return (default VNone (d !! key))
  | VNone => Raise (AttributeError "'NoneType' object has no attribute 'get'")
  | _ => Raise (AttributeError "object has no attribute 'get'")
  end.

(** [resp.raise_for_status()]: client and server errors, 4xx and 5xx. *)
Definition is_http_error (resp : Response) : bool :=
  (400 <=? status_code resp) && (status_code resp <? 600).

Definition raise_for_status (resp : Response) : Outcome unit :=
  if is_http_error resp
  then Raise (HTTPError (status_code resp))
  else Return ().

(** [resp.json()] *)
Definition json (resp : Response) : Outcome PyVal :=
  match parsed resp with
  | Some v => Return v
  | None => Raise ValueError
  end.

(** A response that came back without an error on the wire and whose body
    parses to the JSON object [d]. *)
Definition delivered (resp : Response) (d : gmap string PyVal) : Prop :=
  is_http_error resp = false ∧ parsed resp = Some (VDict d).

(** [requests.session()]: a fresh open session without credentials. *)
Definition requests_session : M nat :=
  λ st, (Return (length (sessions st)),
         mkStore (clients st) (sessions st ++ [mkSession VNone false]) (wire st)).

(** [session.close()] *)
Definition session_close (r : nat) : M unit :=
  _ ← the_session r;
  update_session r (λ s, mkSession (sess_auth s) true).

(** The remote end: what comes back for a request, a transport error
    included. *)
Variable transport : Request → Outcome Response.

Definition send (req : Request) : M Response :=
  λ st, (transport req, mkStore (clients st) (sessions st) (wire st ++ [req])).

(** ** What [core.py] imports from the rest of the package *)

(** [exceptions._status_to_exception], indexed with [[]]. *)
Variable _status_to_exception : gmap string ExcClass.

(** [utils.urlfor] *)
Variable urlfor : list string → string.

(** [exceptions.NeverBounceAPIException]: the class behind the imported
    name, which [exceptions.py] is free to use in the table as well. *)
Variable NeverBounceAPIException_class : ExcClass.


(** [_status_to_exception[api_status]]: a subscript on a mapping keyed by
    status strings. *)
Definition status_to_exception_getitem (api_status : PyVal) : Outcome ExcClass :=
  match api_status with
  | VStr s =>
      match _status_to_exception !! s with
      | Some cls => Return cls
      | None => Raise (KeyError api_status)
      end
  | VList _ | VDict _ => Raise TypeError
  | _ => Raise (KeyError api_status)
  end.

(** ** class APICore *)

(** The [auth] property: the client's own strategy, else the session's. *)
Definition auth (self : nat) : M PyVal :=
  c ← the_client self;
  match session c with
  | Some r =>
      if negb (truthy (_auth c))
      then s ← the_session r; mret (sess_auth s)
      else mret (_auth c)
  | None => mret (_auth c)
  end.

(** Modelled from the spec: [auth.StaticTokenAuth] ([auth.py] is not among
    the sources), the authentication strategy that wraps a raw credential.
    Its instances are ordinary objects, hence truthy. *)
Definition StaticTokenAuth (val : PyVal) : PyVal := VStaticTokenAuth val.

Definition isinstance_StaticTokenAuth (val : PyVal) : bool :=
  match val with
  | VStaticTokenAuth _ => true
  | _ => false
  end.

(** The value the [auth] setter stores for [val]. *)
Definition normalize_auth (val : PyVal) : PyVal :=
  match val with
  | VNone => VNone
  | _ => if isinstance_StaticTokenAuth val then val else StaticTokenAuth val
  end.

Definition auth_setter (self : nat) (val : PyVal) : M unit :=
  _ ← the_client self;
  update_client self (λ c, mkAPICore (normalize_auth val) (session c)).

Definition auth_deleter (self : nat) : M unit :=
  _ ← the_client self;
  update_client self (λ c, mkAPICore VNone (session c)).

(** [APICore(auth, session)]: allocation followed by [__init__]. *)
Definition __init__ (auth0 : PyVal) (session0 : option nat) : M nat :=
  λ st, (Return (length (clients st)),
         mkStore (clients st ++ [mkAPICore (normalize_auth auth0) session0])
                 (sessions st) (wire st)).

Definition _make_request (self : nat) (method0 url0 : string)
    (args0 : list PyVal) (kwargs0 : gmap string PyVal) : M Response :=
  kwargs1 ← (if negb (truthy (default VNone (kwargs0 !! "auth")))
             then a ← auth self; mret (<["auth" := a]> kwargs0)
             else mret kwargs0);
  c ← the_client self;
  match session c with
  | Some r => send (mkRequest (Some r) method0 url0 args0 kwargs1)
  | None => send (mkRequest None method0 url0 args0 kwargs1)
  end.

Definition _check_response (self : nat) (resp : Response) : M Response :=
  _ ← lift (raise_for_status resp);
  data ← lift (json resp);
  match getitem data "status" with
  | Raise (KeyError _) =>
      payload ← lift (json resp);
      raise (NeverBounceAPIException payload)
  | Raise e => raise e
  | Return api_status =>
      if eq_str api_status "success" then mret resp
      else
        exc ← lift (status_to_exception_getitem api_status);
        message ← lift (dict_get data "message");
        execution_time ← lift (dict_get data "execution_time");
        message ← (if eq_str api_status "auth_failure"
                   then a ← auth self;
                        mret (if negb (truthy a)
                              then VStr "NeverBounceAPIClient.auth is not set"
                              else message)
                   else mret message);
        raise (APIError exc message execution_time)
  end.

Definition __enter__ (self : nat) : M nat :=
  c ← the_client self;
  _ ← match session c with
      | None =>
          r ← requests_session;
          update_client self (λ c, mkAPICore (_auth c) (Some r))
      | Some _ => mret ()
      end;
  mret self.

(** [__exit__(self, *args)]: [exc] is the exception pending at the end of
    the block, which is all that [*args] can tell; the method returns
    [None]. *)
Definition __exit__ (self : nat) (exc : option Exn) : M PyVal :=
  c ← the_client self;
  match session c with
  | None =>
      raise (AttributeError "'NoneType' object has no attribute 'close'")
  | Some r =>
      _ ← session_close r;
      _ ← update_client self (λ c, mkAPICore (_auth c) None);
      mret VNone
  end.

(** [with mgr as x: body]: the statement of the language that drives
    [__enter__] and [__exit__]. *)
Definition with_ (mgr : nat) (body : nat → M unit) : M unit :=
  x ← __enter__ mgr;
  o ← attempt (body x);
  match o with
  | Return _ => _ ← __exit__ mgr None; mret ()
  | Raise e =>
      suppress ← __exit__ mgr (Some e);
      if truthy suppress then mret () else raise e
  end.

(** ** class NeverBounceAPIClient *)

Definition account_info (self : nat) : M PyVal :=
  let endpoint := urlfor ["account"; "info"] in
  resp ← _make_request self "GET" endpoint [] ∅;
  _ ← _check_response self resp;
  lift (json resp).

Definition verify (self : nat) (email : PyVal)
    (address_info credits_info : bool) (max_execution_time : PyVal) : M PyVal :=
  let endpoint := urlfor ["single"; "check"] in
  let params := dict [("email", email);
                      ("address_info", int_of_bool address_info);
                      ("credits_info", int_of_bool credits_info);
                      ("max_execution_time", max_execution_time)] in
  resp ← _make_request self "GET" endpoint [] {["params" := VDict params]};
  _ ← _check_response self resp;
  lift (json resp).

(** [verify(email)] with every keyword left at its default. *)
Definition verify_default (self : nat) (email : PyVal) : M PyVal :=
  verify self email false false (VInt 30).

End Core.

(** ** The error taxonomy and sample inputs *)

(** Modelled from the spec: the exception classes of [exceptions.py], which
    is not among the sources.  The taxonomy names five kinds of API error,
    [general_failure] being the catch-all one. *)
Inductive APIErrorKind : Type :=
| AuthFailure
| ThrottleTriggered
| BadReferrer
| InvalidCredentials
| GeneralFailure.

(** Modelled from the spec: the table [exceptions._status_to_exception],
    a fixed mapping from the API's status strings to the kinds above.  The
    spec gives these five as the least the table holds; the table of the
    package may hold more, so nothing below is read off a key being absent
    here, except for a status that is no status of the API at all. *)
Definition status_to_exception_spec : gmap string APIErrorKind :=
  list_to_map [("auth_failure", AuthFailure);
               ("throttle_triggered", ThrottleTriggered);
               ("bad_referrer", BadReferrer);
               ("invalid_credentials", InvalidCredentials);
               ("general_failure", GeneralFailure)].

Definition sample_urlfor (parts : list string) : string :=
  String.concat "/" ("https://api.neverbounce.com/v4" :: parts).

Definition payload_success : gmap string PyVal :=
  dict [("status", VStr "success"); ("result", VStr "valid");
        ("execution_time", VInt 285)].

Definition payload_auth_failure : gmap string PyVal :=
  dict [("status", VStr "auth_failure");
        ("message", VStr "Invalid API key");
        ("execution_time", VInt 12)].

Definition payload_throttled : gmap string PyVal :=
  dict [("status", VStr "throttle_triggered");
        ("message", VStr "Too many requests")].

Definition payload_unlisted : gmap string PyVal :=
  dict [("status", VStr "no_such_status");
        ("message", VStr "Try again later")].



Definition response_of (d : gmap string PyVal) : Response :=
  mkResponse 200 "" (Some (VDict d)).

Definition sample_transport (req : Request) : Outcome (ExcClass := APIErrorKind) Response :=
  Return (response_of payload_success).

(** One client without credentials and without a session. *)
Definition store_bare : Store :=
  mkStore [mkAPICore VNone None] [] [].

(** One client holding a key, no session. *)
Definition store_keyed : Store :=
  mkStore [mkAPICore (StaticTokenAuth (VStr "secret")) None] [] [].

(** One client without credentials of its own, on a session that has some. *)
Definition store_on_session : Store :=
  mkStore [mkAPICore VNone (Some 0%nat)]
          [mkSession (VTuple [VStr "user"; VStr "pass"]) false] [].

(** One client whose key is the empty string, without and with a session. *)
Definition store_empty_key : Store :=
  mkStore [mkAPICore (StaticTokenAuth (VStr "")) None] [] [].

Definition store_empty_key_on_session : Store :=
  mkStore [mkAPICore (StaticTokenAuth (VStr "")) (Some 0%nat)]
          [mkSession (VTuple [VStr "user"; VStr "pass"]) false] [].

(** The request [verify('test@example.com')] sends for the client of
    [store_keyed]. *)
Definition request_verify_default : Request :=
  mkRequest None "GET" "https://api.neverbounce.com/v4/single/check" []
    (dict [("params",
            VDict (dict [("email", VStr "test@example.com");
                         ("address_info", VInt 0);
                         ("credits_info", VInt 0);
                         ("max_execution_time", VInt 30)]));
           ("auth", StaticTokenAuth (VStr "secret"))]).

(** A block that fails half way, and one that runs through. *)
Definition body_raises (x : nat) : M (ExcClass := APIErrorKind) unit :=
  raise ValueError.

Definition body_returns (x : nat) : M (ExcClass := APIErrorKind) unit :=
  mret ().

(** Responses that never reach the status check: a server error with a
    success body, a body that is no JSON, a body that is a JSON list. *)
Definition response_server_error : Response :=
  mkResponse 500 "" (Some (VDict payload_success)).

Definition response_malformed : Response :=
  mkResponse 200 "<html>" None.

Definition response_list : Response :=
  mkResponse 200 "[]" (Some (VList [])).

Definition payload_null_status : gmap string PyVal :=
  dict [("status", VNone); ("message", VStr "hello")].

(** A remote end that is down, and one that rejects the key. *)
Definition transport_down (req : Request) : Outcome (ExcClass := APIErrorKind) Response :=
  Raise ConnectionError.

Definition transport_rejects (req : Request) : Outcome (ExcClass := APIErrorKind) Response :=
  Return (response_of payload_auth_failure).

(** One client holding a key, on a session with credentials of its own. *)
Definition store_keyed_on_session : Store :=
  mkStore [mkAPICore (StaticTokenAuth (VStr "secret")) (Some 0%nat)]
          [mkSession (VTuple [VStr "user"; VStr "pass"]) false] [].

(** Two clients on one session. *)
Definition store_shared : Store :=
  mkStore [mkAPICore VNone (Some 0%nat);
           mkAPICore (StaticTokenAuth (VStr "secret")) (Some 0%nat)]
          [mkSession VNone false] [].

(** ** Properties *)

Ltac unfold_M :=
  unfold mbind, mret, M_bind, M_ret, bind, ret, raise, lift, attempt in *.

Ltac run_M := unfold_M; cbn [fst snd].

Section Facts.

Context {ExcClass : Type}.
Variable transport : Request → Outcome (ExcClass := ExcClass) Response.
Variable _status_to_exception : gmap string ExcClass.
Variable urlfor : list string → string.
Variable NeverBounceAPIException_class : ExcClass.

Implicit Types (self r : nat) (st : Store) (c : APICore) (resp : Response).
Implicit Types (d : gmap string PyVal) (s : string) (cls : ExcClass).

(** *** The [auth] property *)

Lemma the_client_lookup self c st :
  clients st !! self = Some c →
  the_client (ExcClass := ExcClass) self st = (Return c, st).
Proof. intros Hc. unfold the_client. by rewrite Hc. Qed.

Lemma the_session_lookup r x st :
  sessions st !! r = Some x →
  the_session (ExcClass := ExcClass) r st = (Return x, st).
Proof. intros Hx. unfold the_session. by rewrite Hx. Qed.

Lemma auth_store self st : (auth (ExcClass := ExcClass) self st).2 = st.
Proof.
  unfold auth, the_client, the_session. run_M.
  destruct (clients st !! self) as [c|]; [|done].
  destruct (session c) as [r|]; [|done].
  destruct (truthy (_auth c)); [done|]. cbn.
  by destruct (sessions st !! r).
Qed.

Lemma auth_own self c st :
  clients st !! self = Some c →
  truthy (_auth c) = true ∨ session c = None →
  auth (ExcClass := ExcClass) self st = (Return (_auth c), st).
Proof.
  intros Hc Hown. unfold auth. run_M. rewrite (the_client_lookup _ _ _ Hc).
  destruct (session c) as [r|]; [|done].
  destruct Hown as [->|?]; by simplify_eq.
Qed.

Lemma auth_fallback self c r x st :
  clients st !! self = Some c →
  truthy (_auth c) = false →
  session c = Some r →
  sessions st !! r = Some x →
  auth (ExcClass := ExcClass) self st = (Return (sess_auth x), st).
Proof.
  intros Hc Hown Hr Hx. unfold auth. run_M.
  rewrite (the_client_lookup _ _ _ Hc), Hr, Hown. cbn.
  by rewrite (the_session_lookup _ _ _ Hx).
Qed.

(** *** [_check_response] *)

Lemma check_response_store self resp st :
  (_check_response _status_to_exception self resp st).2 = st.
Proof.
  unfold _check_response. run_M.
  destruct (raise_for_status resp) as [[]|]; [|done].
  destruct (json resp) as [data|]; [|done].
  destruct (getitem data "status") as [api_status|e].
  - destruct (eq_str api_status "success"); [done|].
    destruct (status_to_exception_getitem _ api_status) as [exc|]; [|done].
    destruct (dict_get data "message") as [message|]; [|done].
    destruct (dict_get data "execution_time") as [execution_time|]; [|done].
    destruct (eq_str api_status "auth_failure"); [|done].
    pose proof (auth_store self st) as Ha.
    destruct (auth self st) as [[a|e] st']; cbn in Ha; subst; [|done].
    by destruct (truthy a).
  - by destruct e.
Qed.

Lemma eq_str_VStr s lit : eq_str (VStr s) lit = bool_decide (s = lit).
Proof.
  cbn. destruct (String.eqb_spec s lit).
  - by rewrite bool_decide_eq_true_2.
  - by rewrite bool_decide_eq_false_2.
Qed.

(** What is raised for a status that the table knows. *)
Lemma check_response_listed self resp d s cls st :
  delivered resp d →
  d !! "status" = Some (VStr s) →
  s ≠ "success" →
  _status_to_exception !! s = Some cls →
  _check_response _status_to_exception self resp st =
    if bool_decide (s = "auth_failure") then
      match auth self st with
      | (Return a, _) =>
          (Raise (APIError cls
                    (if truthy a then default VNone (d !! "message")
                     else VStr "NeverBounceAPIClient.auth is not set")
                    (default VNone (d !! "execution_time"))), st)
      | (Raise e, _) => (Raise e, st)
      end
    else
      (Raise (APIError cls (default VNone (d !! "message"))
                (default VNone (d !! "execution_time"))), st).
Proof.
  intros [Hwire Hjson] Hstatus Hs Hcls.
  unfold _check_response, raise_for_status, json. run_M.
  rewrite Hwire, Hjson. cbn [getitem dict_get].
  rewrite Hstatus, !eq_str_VStr, (bool_decide_eq_false_2 _ Hs).
  cbn [status_to_exception_getitem]. rewrite Hcls.
  case_bool_decide; [|done].
  pose proof (auth_store self st) as Ha.
  destruct (auth self st) as [[a|e] st']; cbn in Ha; subst; [|done].
  by destruct (truthy a).
Qed.

(** Steps 1 to 3 of [_check_response] on a delivered response: no error
    on the wire, the body parsed, the subscript on ['status'] next. *)
Ltac read_response Hresp :=
  let Hwire := fresh "Hwire" in
  let Hjson := fresh "Hjson" in
  destruct Hresp as [Hwire Hjson];
  unfold _check_response, raise_for_status, json; run_M;
  rewrite Hwire, Hjson; cbn [getitem].

(** C7.  A response that arrived without a transport error and whose body
    has [status] equal to ['success'] is handed back as it is: nothing is
    raised, and the store (the client, the sessions, the wire) is left as
    it was. *)
Theorem check_response_success self resp d st :
  delivered resp d →
  d !! "status" = Some (VStr "success") →
  _check_response _status_to_exception self resp st = (Return resp, st).
Proof.
  intros Hresp Hstatus. read_response Hresp. by rewrite Hstatus.
Qed.


(** C1, as the code has it.  A non-success status string that is not a key
    of [_status_to_exception] makes the subscript fail: [_check_response]
    raises [KeyError] with that status, and no error of the taxonomy. *)
Theorem check_response_unlisted_status self resp d s st :
  delivered resp d →
  d !! "status" = Some (VStr s) →
  s ≠ "success" →
  _status_to_exception !! s = None →
  _check_response _status_to_exception self resp st =
    (Raise (KeyError (VStr s)), st).
Proof.
  intros Hresp Hstatus Hs Hcls. read_response Hresp.
  rewrite Hstatus, eq_str_VStr, (bool_decide_eq_false_2 _ Hs).
  cbn [status_to_exception_getitem]. by rewrite Hcls.
Qed.

(** C4, as the code has it.  For a non-success status that the table maps
    to a class, [_check_response] raises exactly that class.  Its
    execution time is the payload's [execution_time] and its message the
    payload's [message] ([None] when the key is absent), except for
    ['auth_failure'] on a client whose resolved auth [a] is false, where
    the message is the fixed local one. *)
Theorem check_response_mapped_kind self resp d s cls a st :
  delivered resp d →
  d !! "status" = Some (VStr s) →
  s ≠ "success" →
  _status_to_exception !! s = Some cls →
  (s = "auth_failure" → auth (ExcClass := ExcClass) self st = (Return a, st)) →
  _check_response _status_to_exception self resp st =
    (Raise (APIError cls
              (if bool_decide (s = "auth_failure") && negb (truthy a)
               then VStr "NeverBounceAPIClient.auth is not set"
               else default VNone (d !! "message"))
              (default VNone (d !! "execution_time"))), st).
Proof.
  intros Hresp Hstatus Hs Hcls Hauth.
  rewrite (check_response_listed _ _ _ _ _ _ Hresp Hstatus Hs Hcls).
  case_bool_decide as Hs'; [|done].
  rewrite (Hauth Hs'). by destruct (truthy a).
Qed.

(** C2.  On ['auth_failure'] the class the table gives for that status is
    raised.  When the auth the client resolves to, [a], is absent (false
    in Python's sense, as [None] is) the message is the fixed string
    ['NeverBounceAPIClient.auth is not set']; when an auth is resolved the
    server's message goes through as it came. *)
Theorem auth_failure_message self resp d cls a st :
  delivered resp d →
  d !! "status" = Some (VStr "auth_failure") →
  _status_to_exception !! "auth_failure" = Some cls →
  auth (ExcClass := ExcClass) self st = (Return a, st) →
  _check_response _status_to_exception self resp st =
    (Raise (APIError cls
              (if truthy a then default VNone (d !! "message")
               else VStr "NeverBounceAPIClient.auth is not set")
              (default VNone (d !! "execution_time"))), st).
Proof.
  intros Hresp Hstatus Hcls Hauth.
  rewrite (check_response_listed _ _ _ _ _ _ Hresp Hstatus ltac:(done) Hcls).
  rewrite bool_decide_eq_true_2 by done. by rewrite Hauth.
Qed.

(** *** The [auth] setter *)

Lemma list_alter_lookup {A} (f : A → A) (l : list A) (i : nat) (x : A) :
  l !! i = Some x → alter f i l = <[i := f x]> l.
Proof.
  revert i. induction l as [|y l IH]; intros [|i] Hx; simplify_eq/=; [done|].
  f_equal. by apply IH.
Qed.

Lemma update_client_lookup self c (f : APICore → APICore) st :
  clients st !! self = Some c →
  update_client (ExcClass := ExcClass) self f st =
    (Return (), mkStore (<[self := f c]> (clients st)) (sessions st) (wire st)).
Proof.
  intros Hc. unfold update_client. by rewrite (list_alter_lookup _ _ _ _ Hc).
Qed.

Lemma normalize_auth_cases val :
  normalize_auth val =
    match val with
    | VNone => VNone
    | VStaticTokenAuth _ => val
    | _ => StaticTokenAuth val
    end.
Proof. by destruct val. Qed.

Lemma normalize_auth_idemp val :
  normalize_auth (normalize_auth val) = normalize_auth val.
Proof. by destruct val. Qed.

Lemma auth_setter_lookup self c val st :
  clients st !! self = Some c →
  auth_setter (ExcClass := ExcClass) self val st =
    (Return (),
     mkStore (<[self := mkAPICore (normalize_auth val) (session c)]> (clients st))
             (sessions st) (wire st)).
Proof.
  intros Hc. unfold auth_setter. run_M.
  by rewrite (the_client_lookup _ _ _ Hc), (update_client_lookup _ _ _ _ Hc).
Qed.

(** C9.  The setter stores [None] for [None], a [StaticTokenAuth] as it is,
    and any other value wrapped in a [StaticTokenAuth]; nothing else of
    the client changes, and setting the stored value again changes
    nothing. *)
Theorem auth_setter_normalizes self c val st :
  clients st !! self = Some c →
  let stored :=
    match val with
    | VNone => VNone
    | VStaticTokenAuth _ => val
    | _ => StaticTokenAuth val
    end in
  let st' :=
    mkStore (<[self := mkAPICore stored (session c)]> (clients st))
            (sessions st) (wire st) in
  auth_setter (ExcClass := ExcClass) self val st = (Return (), st') ∧
  auth_setter (ExcClass := ExcClass) self stored st' = (Return (), st').
Proof.
  intros Hc stored st'. subst stored st'.
  rewrite <-normalize_auth_cases. split; [by apply auth_setter_lookup|].
  erewrite auth_setter_lookup; last first.
  { cbn. apply list_lookup_insert_eq. by eapply lookup_lt_Some. }
  cbn. by rewrite list_insert_insert_eq, normalize_auth_idemp.
Qed.

(** *** Scoped sessions *)

Lemma session_close_lookup r x st :
  sessions st !! r = Some x →
  session_close (ExcClass := ExcClass) r st =
    (Return (),
     mkStore (clients st) (<[r := mkSession (sess_auth x) true]> (sessions st))
             (wire st)).
Proof.
  intros Hx. unfold session_close, update_session. run_M.
  by rewrite (the_session_lookup _ _ _ Hx), (list_alter_lookup _ _ _ _ Hx).
Qed.

Lemma exit_closes self c r x exc st :
  clients st !! self = Some c →
  session c = Some r →
  sessions st !! r = Some x →
  __exit__ (ExcClass := ExcClass) self exc st =
    (Return VNone,
     mkStore (<[self := mkAPICore (_auth c) None]> (clients st))
             (<[r := mkSession (sess_auth x) true]> (sessions st))
             (wire st)).
Proof.
  intros Hc Hr Hx. unfold __exit__. run_M.
  rewrite (the_client_lookup _ _ _ Hc), Hr. run_M.
  rewrite (session_close_lookup _ _ _ Hx).
  by rewrite (update_client_lookup self c).
Qed.

(** C10.  On a client whose session is [None], [__exit__] raises the
    [AttributeError] of [None.close] and leaves the store as it was. *)
Theorem exit_without_session self c exc st :
  clients st !! self = Some c →
  session c = None →
  __exit__ (ExcClass := ExcClass) self exc st =
    (Raise (AttributeError "'NoneType' object has no attribute 'close'"), st).
Proof.
  intros Hc Hnone. unfold __exit__. run_M.
  by rewrite (the_client_lookup _ _ _ Hc), Hnone.
Qed.

(** A second [__exit__] right after a first one is such a call. *)
Lemma exit_twice self c r x exc exc' st :
  clients st !! self = Some c →
  session c = Some r →
  sessions st !! r = Some x →
  ∃ st', __exit__ (ExcClass := ExcClass) self exc st = (Return VNone, st') ∧
         __exit__ (ExcClass := ExcClass) self exc' st' =
           (Raise (AttributeError "'NoneType' object has no attribute 'close'"),
            st').
Proof.
  intros Hc Hr Hx. eexists. split; [by eapply exit_closes|].
  unfold __exit__. run_M.
  rewrite (the_client_lookup self (mkAPICore (_auth c) None)); [done|]. cbn.
  apply list_lookup_insert_eq. by eapply lookup_lt_Some.
Qed.

Lemma enter_creates self c st :
  clients st !! self = Some c →
  session c = None →
  __enter__ (ExcClass := ExcClass) self st =
    (Return self,
     mkStore (<[self := mkAPICore (_auth c) (Some (length (sessions st)))]>
                (clients st))
             (sessions st ++ [mkSession VNone false]) (wire st)).
Proof.
  intros Hc Hnone. unfold __enter__, requests_session. run_M.
  rewrite (the_client_lookup _ _ _ Hc), Hnone. run_M.
  by rewrite (update_client_lookup self c).
Qed.

Lemma with_runs_exit self (body : nat → @M ExcClass unit) o st inside st2 c2 r2 x2 :
  __enter__ (ExcClass := ExcClass) self st = (Return self, inside) →
  body self inside = (o, st2) →
  clients st2 !! self = Some c2 →
  session c2 = Some r2 →
  sessions st2 !! r2 = Some x2 →
  with_ (ExcClass := ExcClass) self body st =
    (o, mkStore (<[self := mkAPICore (_auth c2) None]> (clients st2))
                (<[r2 := mkSession (sess_auth x2) true]> (sessions st2))
                (wire st2)).
Proof.
  intros Henter Hbody Hc2 Hr2 Hx2. unfold with_. run_M.
  rewrite Henter, Hbody. cbn [fst snd].
  destruct o as [[]|e];
    by rewrite (exit_closes _ _ _ _ _ _ Hc2 Hr2 Hx2).
Qed.

(** C5.  On a client without a session, [__enter__] allocates one session,
    stores it in the client and returns the client.  [__exit__] from there
    closes that session and sets the client's session to [None], whatever
    exception is pending; a [with] block whose body leaves the client on a
    session ends with that session closed and the reference cleared, both
    when the body returns and when it raises, and the body's exception
    goes on to the caller. *)
Theorem scope_creates_and_releases_session self c st :
  clients st !! self = Some c →
  session c = None →
  let r := length (sessions st) in
  let inside :=
    mkStore (<[self := mkAPICore (_auth c) (Some r)]> (clients st))
            (sessions st ++ [mkSession VNone false]) (wire st) in
  __enter__ (ExcClass := ExcClass) self st = (Return self, inside) ∧
  (∀ exc,
     __exit__ (ExcClass := ExcClass) self exc inside =
       (Return VNone,
        mkStore (<[self := mkAPICore (_auth c) None]> (clients st))
                (sessions st ++ [mkSession VNone true]) (wire st))) ∧
  (∀ (body : nat → @M ExcClass unit) o st2 c2 r2 x2,
     body self inside = (o, st2) →
     clients st2 !! self = Some c2 →
     session c2 = Some r2 →
     sessions st2 !! r2 = Some x2 →
     with_ (ExcClass := ExcClass) self body st =
       (o, mkStore (<[self := mkAPICore (_auth c2) None]> (clients st2))
                   (<[r2 := mkSession (sess_auth x2) true]> (sessions st2))
                   (wire st2))).
Proof.
  intros Hc Hnone r inside.
  pose proof (enter_creates _ _ _ Hc Hnone) as Henter.
  pose proof (lookup_lt_Some _ _ _ Hc) as Hlt.
  split_and!; [done| |].
  - intros exc.
    rewrite (exit_closes self (mkAPICore (_auth c) (Some r)) r
               (mkSession VNone false)); cbn.
    + rewrite list_insert_insert_eq. do 2 f_equal.
      replace r with (length (sessions st) + 0)%nat by (unfold r; lia).
      by rewrite insert_app_r.
    + by apply list_lookup_insert_eq.
    + done.
    + by apply list_lookup_middle.
  - intros body o st2 c2 r2 x2. by apply with_runs_exit.
Qed.

(** *** Resolution of the auth *)

Lemma make_request_sends self c a method0 url0 args0 kwargs0 st :
  clients st !! self = Some c →
  auth (ExcClass := ExcClass) self st = (Return a, st) →
  let sent :=
    mkRequest (session c) method0 url0 args0
      (if truthy (default VNone (kwargs0 !! "auth")) then kwargs0
       else <["auth" := a]> kwargs0) in
  _make_request transport self method0 url0 args0 kwargs0 st =
    (transport sent, mkStore (clients st) (sessions st) (wire st ++ [sent])).
Proof.
  intros Hc Hauth sent. subst sent. unfold _make_request, send. run_M.
  destruct (truthy (default VNone (kwargs0 !! "auth"))); cbn [negb].
  - rewrite (the_client_lookup _ _ _ Hc). by destruct (session c).
  - rewrite Hauth, (the_client_lookup _ _ _ Hc). by destruct (session c).
Qed.

(** C3, as the code has it.  After the credential is set to [None] the
    client's auth is the session's auth when the client is on a session
    and [None] otherwise.  An empty string is not taken for an unset
    credential: it is wrapped like any other raw value, and the wrapped
    strategy is what the client resolves to.  At request time an [auth]
    keyword that is true in Python's sense is sent as it is; otherwise the
    client's resolved auth is sent. *)
Theorem auth_resolution self c a method0 url0 args0 kwargs0 st :
  clients st !! self = Some c →
  (∀ r, session c = Some r → is_Some (sessions st !! r)) →
  auth (ExcClass := ExcClass) self st = (Return a, st) →
  let own v :=
    mkStore (<[self := mkAPICore v (session c)]> (clients st))
            (sessions st) (wire st) in
  let sent :=
    mkRequest (session c) method0 url0 args0
      (if truthy (default VNone (kwargs0 !! "auth")) then kwargs0
       else <["auth" := a]> kwargs0) in
  auth_setter (ExcClass := ExcClass) self VNone st = (Return (), own VNone) ∧
  auth (ExcClass := ExcClass) self (own VNone) =
    (Return (match session c with
             | Some r => default VNone (sess_auth <$> sessions st !! r)
             | None => VNone
             end), own VNone) ∧
  auth_setter (ExcClass := ExcClass) self (VStr "") st =
    (Return (), own (StaticTokenAuth (VStr ""))) ∧
  auth (ExcClass := ExcClass) self (own (StaticTokenAuth (VStr ""))) =
    (Return (StaticTokenAuth (VStr "")), own (StaticTokenAuth (VStr ""))) ∧
  _make_request transport self method0 url0 args0 kwargs0 st =
    (transport sent, mkStore (clients st) (sessions st) (wire st ++ [sent])).
Proof.
  intros Hc Hvalid Hauth own sent.
  pose proof (lookup_lt_Some _ _ _ Hc) as Hlt.
  assert (∀ v, clients (own v) !! self = Some (mkAPICore v (session c)))
    as Hown by (intros v; by apply list_lookup_insert_eq).
  split_and!.
  - by apply auth_setter_lookup.
  - destruct (session c) as [r|] eqn:Hr.
    + destruct (Hvalid r eq_refl) as [x Hx]. rewrite Hx. cbn.
      by apply (auth_fallback self _ r x (own VNone) (Hown VNone)).
    + apply (auth_own self _ (own VNone) (Hown VNone)). by right.
  - by apply auth_setter_lookup.
  - apply (auth_own self _ _ (Hown _)). by left.
  - by apply make_request_sends.
Qed.

(** *** [verify] *)

Lemma verify_sends self c a email address_info credits_info met st :
  clients st !! self = Some c →
  auth (ExcClass := ExcClass) self st = (Return a, st) →
  let sent :=
    mkRequest (session c) "GET" (urlfor ["single"; "check"]) []
      (<["auth" := a]>
         {["params" :=
             VDict (dict [("email", email);
                          ("address_info", VInt (Z.b2z address_info));
                          ("credits_info", VInt (Z.b2z credits_info));
                          ("max_execution_time", met)])]}) in
  let st' := mkStore (clients st) (sessions st) (wire st ++ [sent]) in
  verify transport _status_to_exception urlfor self email
         address_info credits_info met st =
    match transport sent with
    | Return resp =>
        match _check_response _status_to_exception self resp st' with
        | (Return _, _) => (json resp, st')
        | (Raise e, _) => (Raise e, st')
        end
    | Raise e => (Raise e, st')
    end.
Proof.
  intros Hc Hauth sent st'. unfold verify. run_M.
  rewrite (make_request_sends _ _ _ _ _ _ _ _ Hc Hauth).
  rewrite lookup_singleton_ne by done. cbn [default truthy].
  subst sent st'. unfold int_of_bool.
  destruct (transport _) as [resp|e]; [|done].
  match goal with
  | |- context [_check_response _ self resp ?x] =>
      pose proof (check_response_store self resp x) as Hst;
      destruct (_check_response _status_to_exception self resp x)
        as [[?|?] ?]
  end; by cbn in Hst; subst.
Qed.

(** C8.  [verify(email)] with the flags at their defaults sends one request:
    a GET to [urlfor('single', 'check')] whose [params] are the email,
    [address_info=0], [credits_info=0] and [max_execution_time=30].  Any
    flag goes out as the integer 0 or 1.  When the answer is a success
    response, the parsed payload is what [verify] returns. *)
Theorem verify_default_request self c a email st :
  clients st !! self = Some c →
  auth (ExcClass := ExcClass) self st = (Return a, st) →
  let request_for address_info credits_info met :=
    mkRequest (session c) "GET" (urlfor ["single"; "check"]) []
      (<["auth" := a]>
         {["params" :=
             VDict (dict [("email", email);
                          ("address_info", VInt address_info);
                          ("credits_info", VInt credits_info);
                          ("max_execution_time", met)])]}) in
  let after sent := mkStore (clients st) (sessions st) (wire st ++ [sent]) in
  (verify_default transport _status_to_exception urlfor self email st).2 =
    after (request_for 0 0 (VInt 30)) ∧
  (∀ resp d,
     transport (request_for 0 0 (VInt 30)) = Return resp →
     delivered resp d →
     d !! "status" = Some (VStr "success") →
     verify_default transport _status_to_exception urlfor self email st =
       (Return (VDict d), after (request_for 0 0 (VInt 30)))) ∧
  (∀ address_info credits_info met,
     (verify transport _status_to_exception urlfor self email
             address_info credits_info met st).2 =
       after (request_for (if address_info then 1 else 0)
                          (if credits_info then 1 else 0) met)).
Proof.
  intros Hc Hauth request_for after.
  assert (∀ address_info credits_info met,
            (verify transport _status_to_exception urlfor self email
                    address_info credits_info met st).2 =
              after (request_for (Z.b2z address_info) (Z.b2z credits_info) met))
    as Hsent.
  { intros address_info credits_info met.
    rewrite (verify_sends _ _ _ _ _ _ _ _ Hc Hauth).
    destruct (transport _) as [resp|e]; [|done].
    by destruct (_check_response _ _ _ _) as [[?|?] ?]. }
  split_and!.
  - apply (Hsent false false).
  - intros resp d Hresp Hdelivered Hstatus. unfold verify_default.
    rewrite (verify_sends _ _ _ _ _ _ _ _ Hc Hauth). cbn [Z.b2z].
    subst request_for after. cbn beta in *. rewrite Hresp.
    assert (∀ st0, _check_response _status_to_exception self resp st0 =
                     (Return resp, st0)) as ->.
    { intros st0. destruct Hdelivered as [Hwire Hjson].
      unfold _check_response, raise_for_status, json. run_M.
      rewrite Hwire, Hjson. cbn [getitem]. by rewrite Hstatus. }
    destruct Hdelivered as [_ Hjson]. unfold json. by rewrite Hjson.
  - intros address_info credits_info met.
    rewrite (Hsent address_info credits_info met).
    replace (Z.b2z address_info) with (if address_info then 1 else 0)
      by (by destruct address_info).
    replace (Z.b2z credits_info) with (if credits_info then 1 else 0)
      by (by destruct credits_info).
    reflexivity.
Qed.

End Facts.

(** ** The properties at sample inputs *)

Lemma check_response_success_witness :
  _check_response status_to_exception_spec 0%nat
                  (response_of payload_success) store_keyed =
    (Return (response_of payload_success), store_keyed).
Proof.
  apply (check_response_success status_to_exception_spec 0%nat
           (response_of payload_success) payload_success store_keyed).
  - split; reflexivity.
  - reflexivity.
Defined.



Lemma check_response_unlisted_status_witness :
  _check_response status_to_exception_spec 0%nat (response_of payload_unlisted) store_keyed =
    (Raise (KeyError (VStr "no_such_status")), store_keyed).
Proof.
  apply (check_response_unlisted_status status_to_exception_spec 0%nat
           (response_of payload_unlisted) payload_unlisted "no_such_status"
           store_keyed).
  - split; reflexivity.
  - reflexivity.
  - discriminate.
  - reflexivity.
Defined.

(** C1 fails as stated: ['no_such_status'] is a non-success status that no
    taxonomy lists, and what comes out is the [KeyError] of the table
    lookup, not an error of the catch-all kind. *)
Lemma unlisted_status_is_not_general_failure :
  payload_unlisted !! "status" = Some (VStr "no_such_status") ∧
  status_to_exception_spec !! "no_such_status" = None ∧
  status_to_exception_spec !! "general_failure" = Some GeneralFailure ∧
  _check_response status_to_exception_spec 0%nat (response_of payload_unlisted) store_keyed =
    (Raise (KeyError (VStr "no_such_status")), store_keyed) ∧
  ¬ ∃ message execution_time st',
      _check_response status_to_exception_spec 0%nat (response_of payload_unlisted) store_keyed =
        (Raise (APIError GeneralFailure message execution_time), st').
Proof.
  split_and!; try reflexivity.
  intros (message & execution_time & st' & Hraised).
  vm_compute in Hraised. discriminate Hraised.
Qed.

Lemma check_response_mapped_kind_witness :
  _check_response status_to_exception_spec 0%nat
                  (response_of payload_throttled) store_bare =
    (Raise (APIError ThrottleTriggered (VStr "Too many requests") VNone),
     store_bare) ∧
  _check_response status_to_exception_spec 0%nat
                  (response_of payload_auth_failure) store_keyed =
    (Raise (APIError AuthFailure (VStr "Invalid API key") (VInt 12)),
     store_keyed).
Proof.
  split.
  - apply (check_response_mapped_kind status_to_exception_spec 0%nat
             (response_of payload_throttled) payload_throttled
             "throttle_triggered" ThrottleTriggered VNone store_bare).
    + split; reflexivity.
    + reflexivity.
    + discriminate.
    + reflexivity.
    + discriminate.
  - apply (check_response_mapped_kind status_to_exception_spec 0%nat
             (response_of payload_auth_failure) payload_auth_failure
             "auth_failure" AuthFailure (StaticTokenAuth (VStr "secret"))
             store_keyed).
    + split; reflexivity.
    + reflexivity.
    + discriminate.
    + reflexivity.
    + reflexivity.
Defined.

(** C4 fails as stated: ['auth_failure'] is a recognized status, the payload
    has the message ['Invalid API key'], and on a client without auth the
    error raised carries the local message instead. *)
Lemma local_message_replaces_payload_message :
  payload_auth_failure !! "status" = Some (VStr "auth_failure") ∧
  status_to_exception_spec !! "auth_failure" = Some AuthFailure ∧
  payload_auth_failure !! "message" = Some (VStr "Invalid API key") ∧
  payload_auth_failure !! "execution_time" = Some (VInt 12) ∧
  _check_response status_to_exception_spec 0%nat (response_of payload_auth_failure) store_bare =
    (Raise (APIError AuthFailure
              (VStr "NeverBounceAPIClient.auth is not set") (VInt 12)),
     store_bare) ∧
  _check_response status_to_exception_spec 0%nat (response_of payload_auth_failure) store_bare ≠
    (Raise (APIError AuthFailure (VStr "Invalid API key") (VInt 12)),
     store_bare).
Proof.
  split_and!; try reflexivity.
  intros Hraised. vm_compute in Hraised. discriminate Hraised.
Qed.

Lemma auth_failure_message_witness :
  _check_response status_to_exception_spec 0%nat (response_of payload_auth_failure) store_bare =
    (Raise (APIError AuthFailure
              (VStr "NeverBounceAPIClient.auth is not set") (VInt 12)),
     store_bare) ∧
  _check_response status_to_exception_spec 0%nat (response_of payload_auth_failure) store_keyed =
    (Raise (APIError AuthFailure (VStr "Invalid API key") (VInt 12)),
     store_keyed).
Proof.
  split.
  - apply (auth_failure_message status_to_exception_spec 0%nat
             (response_of payload_auth_failure) payload_auth_failure
             AuthFailure VNone store_bare).
    + split; reflexivity.
    + reflexivity.
    + reflexivity.
    + reflexivity.
  - apply (auth_failure_message status_to_exception_spec 0%nat
             (response_of payload_auth_failure) payload_auth_failure
             AuthFailure (StaticTokenAuth (VStr "secret")) store_keyed).
    + split; reflexivity.
    + reflexivity.
    + reflexivity.
    + reflexivity.
Defined.

Lemma auth_setter_normalizes_witness :
  auth_setter (ExcClass := APIErrorKind) 0%nat (VStr "secret") store_bare =
    (Return (), store_keyed) ∧
  auth_setter (ExcClass := APIErrorKind) 0%nat (StaticTokenAuth (VStr "secret"))
              store_keyed =
    (Return (), store_keyed).
Proof.
  apply (auth_setter_normalizes (ExcClass := APIErrorKind) 0%nat
           (mkAPICore VNone None) (VStr "secret") store_bare).
  reflexivity.
Defined.

Lemma exit_without_session_witness :
  __exit__ (ExcClass := APIErrorKind) 0%nat None store_bare =
    (Raise (AttributeError "'NoneType' object has no attribute 'close'"),
     store_bare).
Proof.
  apply (exit_without_session (ExcClass := APIErrorKind) 0%nat (mkAPICore VNone None)
           None store_bare); reflexivity.
Defined.

Lemma scope_creates_and_releases_session_witness :
  __enter__ (ExcClass := APIErrorKind) 0%nat store_bare =
    (Return 0%nat,
     mkStore [mkAPICore VNone (Some 0%nat)] [mkSession VNone false] []) ∧
  with_ 0%nat body_raises store_bare =
    (Raise ValueError,
     mkStore [mkAPICore VNone None] [mkSession VNone true] []) ∧
  with_ 0%nat body_returns store_bare =
    (Return (),
     mkStore [mkAPICore VNone None] [mkSession VNone true] []).
Proof.
  destruct (scope_creates_and_releases_session (ExcClass := APIErrorKind) 0%nat
              (mkAPICore VNone None) store_bare eq_refl eq_refl)
    as (Henter & _ & Hwith).
  split_and!.
  - exact Henter.
  - apply (Hwith body_raises (Raise ValueError)
             (mkStore [mkAPICore VNone (Some 0%nat)] [mkSession VNone false] [])
             (mkAPICore VNone (Some 0%nat)) 0%nat (mkSession VNone false));
      reflexivity.
  - apply (Hwith body_returns (Return ())
             (mkStore [mkAPICore VNone (Some 0%nat)] [mkSession VNone false] [])
             (mkAPICore VNone (Some 0%nat)) 0%nat (mkSession VNone false));
      reflexivity.
Defined.

(** C3 fails as stated.  The empty string is an empty credential, yet the
    setter wraps it, and the client then resolves to the wrapped strategy:
    not to [None] when there is no session, and not to the session's auth
    when there is one.  At request time an [auth] keyword that is false in
    Python's sense, such as [''], gives way to the client's own auth. *)
Lemma empty_credential_is_not_unset :
  auth_setter (ExcClass := APIErrorKind) 0%nat (VStr "") store_bare =
    (Return (), store_empty_key) ∧
  auth (ExcClass := APIErrorKind) 0%nat store_empty_key =
    (Return (VStaticTokenAuth (VStr "")), store_empty_key) ∧
  auth (ExcClass := APIErrorKind) 0%nat store_empty_key ≠
    (Return VNone, store_empty_key) ∧
  auth_setter (ExcClass := APIErrorKind) 0%nat (VStr "") store_on_session =
    (Return (), store_empty_key_on_session) ∧
  auth (ExcClass := APIErrorKind) 0%nat store_empty_key_on_session ≠
    (Return (VTuple [VStr "user"; VStr "pass"]), store_empty_key_on_session) ∧
  (_make_request sample_transport 0%nat "GET" "u" [] {["auth" := VStr ""]}
                 store_keyed).2 =
    mkStore (clients store_keyed) (sessions store_keyed)
      [mkRequest None "GET" "u" []
                 {["auth" := VStaticTokenAuth (VStr "secret")]}].
Proof.
  split_and!; try (vm_compute; reflexivity).
  - intros Hnone. vm_compute in Hnone. discriminate Hnone.
  - intros Hsession. vm_compute in Hsession. discriminate Hsession.
Qed.

Lemma auth_resolution_witness :
  auth_setter (ExcClass := APIErrorKind) 0%nat VNone store_on_session =
    (Return (), store_on_session) ∧
  auth (ExcClass := APIErrorKind) 0%nat store_on_session =
    (Return (VTuple [VStr "user"; VStr "pass"]), store_on_session) ∧
  _make_request sample_transport 0%nat "GET" "u" []
                {["auth" := VStr "per-call"]} store_on_session =
    (Return (response_of payload_success),
     mkStore (clients store_on_session) (sessions store_on_session)
       [mkRequest (Some 0%nat) "GET" "u" [] {["auth" := VStr "per-call"]}]).
Proof.
  destruct (auth_resolution sample_transport 0%nat
              (mkAPICore VNone (Some 0%nat))
              (VTuple [VStr "user"; VStr "pass"])
              "GET" "u" [] {["auth" := VStr "per-call"]} store_on_session)
    as (Hset & Hunset & _ & _ & Hsent).
  - reflexivity.
  - intros r [= <-]. eexists. reflexivity.
  - reflexivity.
  - split_and!; [exact Hset | exact Hunset | exact Hsent].
Defined.

Lemma verify_default_request_witness :
  verify_default sample_transport status_to_exception_spec sample_urlfor
                 0%nat (VStr "test@example.com") store_keyed =
    (Return (VDict payload_success),
     mkStore (clients store_keyed) (sessions store_keyed)
             [request_verify_default]).
Proof.
  destruct (verify_default_request sample_transport status_to_exception_spec
              sample_urlfor 0%nat
              (mkAPICore (StaticTokenAuth (VStr "secret")) None)
              (StaticTokenAuth (VStr "secret"))
              (VStr "test@example.com") store_keyed eq_refl eq_refl)
    as (_ & Hok & _).
  apply (Hok (response_of payload_success) payload_success).
  - reflexivity.
  - split; reflexivity.
  - reflexivity.
Defined.

(** ** Further properties of [core.py] *)

Section More.

Context {ExcClass : Type}.
Variable transport : Request → Outcome (ExcClass := ExcClass) Response.
Variable _status_to_exception : gmap string ExcClass.
Variable urlfor : list string → string.

Implicit Types (self r : nat) (st : Store) (c : APICore) (resp : Response).
Implicit Types (d : gmap string PyVal) (s : string) (cls : ExcClass).

(** *** [_check_response]: the paths before and around the status check *)

(** X1.  A 4xx or 5xx response raises [HTTPError] before the body is
    looked at, even when the body says ['success']. *)
Theorem check_response_wire_error_first self resp st :
  400 ≤ status_code resp < 600 →
  _check_response _status_to_exception self resp st =
    (Raise (HTTPError (status_code resp)), st).
Proof.
  intros [Hlo Hhi]. unfold _check_response, raise_for_status, is_http_error.
  run_M.
  by rewrite (proj2 (Z.leb_le _ _) Hlo), (proj2 (Z.ltb_lt _ _) Hhi).
Qed.

(** X2.  A body that does not parse raises the parser's [ValueError]; it is
    not turned into an API exception. *)
Theorem check_response_malformed_body self resp st :
  is_http_error resp = false →
  parsed resp = None →
  _check_response _status_to_exception self resp st = (Raise ValueError, st).
Proof.
  intros Hwire Hjson. unfold _check_response, raise_for_status, json. run_M.
  by rewrite Hwire, Hjson.
Qed.

(** X3.  A body that parses to anything but a JSON object escapes the
    [except KeyError]: the subscript's [TypeError] is what the caller
    gets, not [NeverBounceAPIException]. *)
Theorem check_response_body_not_object self resp v st :
  is_http_error resp = false →
  parsed resp = Some v →
  (∀ d, v ≠ VDict d) →
  _check_response _status_to_exception self resp st = (Raise TypeError, st).
Proof.
  intros Hwire Hjson Hv. unfold _check_response, raise_for_status, json. run_M.
  rewrite Hwire, Hjson. destruct v; try done. by edestruct Hv.
Qed.

(** X4.  A [status] that is present but is no string is never taken for
    success and never reaches the taxonomy: [null], a boolean or a number
    fails the table lookup with [KeyError], a list or an object with
    [TypeError]. *)
Theorem check_response_status_not_string self resp d v st :
  delivered resp d →
  d !! "status" = Some v →
  match v with
  | VNone | VBool _ | VInt _ | VFloat _ =>
      _check_response _status_to_exception self resp st =
        (Raise (KeyError v), st)
  | VList _ | VDict _ =>
      _check_response _status_to_exception self resp st =
        (Raise TypeError, st)
  | VStr _ | VTuple _ | VStaticTokenAuth _ => True
  end.
Proof.
  intros [Hwire Hjson] Hstatus.
  unfold _check_response, raise_for_status, json. run_M.
  rewrite Hwire, Hjson. cbn [getitem]. rewrite Hstatus.
  by destruct v.
Qed.

(** X5.  [_check_response] only reads: whatever it returns or raises, the
    clients, the sessions and the wire are as before, so it sends nothing
    and retries nothing. *)
Theorem check_response_never_writes self resp st :
  ∃ o, _check_response _status_to_exception self resp st = (o, st).
Proof.
  pose proof (check_response_store _status_to_exception self resp st) as Hst.
  destruct (_check_response _ self resp st) as [o st']. cbn in Hst. subst.
  by exists o.
Qed.

(** X6.  [_check_response] returns only on success: when it returns, what
    it returns is the response it was given, there was no error on the
    wire, and the body is an object whose [status] is ['success']. *)
Theorem check_response_returns_only_success self resp resp' st st' :
  _check_response _status_to_exception self resp st = (Return resp', st') →
  resp' = resp ∧ st' = st ∧
  ∃ d, delivered resp d ∧ d !! "status" = Some (VStr "success").
Proof.
  unfold delivered, _check_response, raise_for_status, json. run_M.
  destruct (is_http_error resp); [done|].
  destruct (parsed resp) as [[| | | | | | |d|]|]; try done. cbn [getitem].
  destruct (d !! "status") as [api_status|] eqn:Hstatus; [|done].
  destruct (eq_str api_status "success") eqn:Hsuccess.
  - intros [= <- <-]. split_and!; [done..|]. exists d. split; [done|].
    destruct api_status; try done. cbn in Hsuccess.
    by apply String.eqb_eq in Hsuccess as ->.
  - destruct (status_to_exception_getitem _ api_status) as [exc|]; [|done].
    cbn. destruct (eq_str api_status "auth_failure"); [|done].
    by destruct (auth self st) as [[a|e] st''].
Qed.

(** X7.  An auth on the session counts as configured: for a client with no
    strategy of its own on a session whose auth is set, ['auth_failure']
    is raised with the server's message, not the local one. *)
Theorem auth_failure_with_session_auth self c r x resp d cls st :
  clients st !! self = Some c →
  truthy (_auth c) = false →
  session c = Some r →
  sessions st !! r = Some x →
  truthy (sess_auth x) = true →
  delivered resp d →
  d !! "status" = Some (VStr "auth_failure") →
  _status_to_exception !! "auth_failure" = Some cls →
  _check_response _status_to_exception self resp st =
    (Raise (APIError cls (default VNone (d !! "message"))
              (default VNone (d !! "execution_time"))), st).
Proof.
  intros Hc Hown Hr Hx Hsess Hresp Hstatus Hcls.
  rewrite (check_response_listed _ _ _ _ _ _ _ Hresp Hstatus ltac:(done) Hcls).
  rewrite bool_decide_eq_true_2 by done.
  by rewrite (auth_fallback _ _ _ _ _ Hc Hown Hr Hx), Hsess.
Qed.

(** *** The [auth] property, its setter and its deleter *)

(** X8.  A strategy of the client's own wins over the session's: the
    session is not even looked at. *)
Theorem auth_own_strategy_wins self c token st :
  clients st !! self = Some c →
  _auth c = VStaticTokenAuth token →
  auth (ExcClass := ExcClass) self st = (Return (VStaticTokenAuth token), st).
Proof.
  intros Hc Hown. rewrite <-Hown. apply auth_own; [done|].
  left. by rewrite Hown.
Qed.

(** X9.  Setting a credential and reading [auth] back: for anything but
    [None] the client resolves to the strategy the setter stored, a
    [StaticTokenAuth] in every case, whatever the session holds. *)
Theorem auth_set_then_get self c val st :
  clients st !! self = Some c →
  val ≠ VNone →
  ∃ st',
    auth_setter (ExcClass := ExcClass) self val st = (Return (), st') ∧
    auth (ExcClass := ExcClass) self st' =
      (Return (match val with
               | VStaticTokenAuth _ => val
               | _ => StaticTokenAuth val
               end), st').
Proof.
  intros Hc Hval. eexists. split; [by apply auth_setter_lookup|].
  replace (match val with VStaticTokenAuth _ => val | _ => StaticTokenAuth val end)
    with (normalize_auth val) by (by destruct val).
  apply (auth_own self (mkAPICore (normalize_auth val) (session c))).
  - cbn. apply list_lookup_insert_eq. by eapply lookup_lt_Some.
  - left. by destruct val.
Qed.

(** X10.  [del client.auth] does what [client.auth = None] does, and the
    client is back on the fallback: the session's auth when it is on a
    session, [None] when it is not. *)
Theorem auth_delete_falls_back self c st :
  clients st !! self = Some c →
  ∃ st',
    auth_deleter (ExcClass := ExcClass) self st = (Return (), st') ∧
    auth_setter (ExcClass := ExcClass) self VNone st = (Return (), st') ∧
    (∀ r x, session c = Some r → sessions st !! r = Some x →
            auth (ExcClass := ExcClass) self st' = (Return (sess_auth x), st')) ∧
    (session c = None →
     auth (ExcClass := ExcClass) self st' = (Return VNone, st')).
Proof.
  intros Hc.
  pose proof (lookup_lt_Some _ _ _ Hc) as Hlt.
  eexists. split_and!.
  - unfold auth_deleter. run_M.
    by rewrite (the_client_lookup _ _ _ Hc), (update_client_lookup _ _ _ _ Hc).
  - by rewrite (auth_setter_lookup _ _ _ _ Hc).
  - intros r x Hr Hx.
    apply (auth_fallback self (mkAPICore VNone (session c)) r x); try done.
    cbn. by apply list_lookup_insert_eq.
  - intros Hnone. apply (auth_own self (mkAPICore VNone (session c))).
    + cbn. by apply list_lookup_insert_eq.
    + by right.
Qed.

(** X11.  [APICore(auth, session)] gives a fresh client and leaves every
    other object alone; with a credential other than [None] the new
    client resolves to the wrapped credential, whatever session it was
    given. *)
Theorem init_then_auth auth0 session0 st :
  auth0 ≠ VNone →
  ∃ st',
    __init__ (ExcClass := ExcClass) auth0 session0 st =
      (Return (length (clients st)), st') ∧
    (∀ i c, clients st !! i = Some c → clients st' !! i = Some c) ∧
    sessions st' = sessions st ∧ wire st' = wire st ∧
    auth (ExcClass := ExcClass) (length (clients st)) st' =
      (Return (match auth0 with
               | VStaticTokenAuth _ => auth0
               | _ => StaticTokenAuth auth0
               end), st').
Proof.
  intros Hauth. eexists. split_and!; [done| | done | done |].
  - intros i c Hc. cbn. by apply lookup_app_l_Some.
  - replace (match auth0 with
             | VStaticTokenAuth _ => auth0
             | _ => StaticTokenAuth auth0
             end)
      with (normalize_auth auth0) by (by destruct auth0).
    apply (auth_own _ (mkAPICore (normalize_auth auth0) session0)).
    + cbn. by apply list_lookup_middle.
    + left. by destruct auth0.
Qed.

(** *** Scopes *)

Lemma enter_keeps self c r st :
  clients st !! self = Some c →
  session c = Some r →
  __enter__ (ExcClass := ExcClass) self st = (Return self, st).
Proof.
  intros Hc Hr. unfold __enter__. run_M.
  by rewrite (the_client_lookup _ _ _ Hc), Hr.
Qed.

(** X12.  [__enter__] is idempotent: on a client that already has a
    session it keeps that session and changes nothing, so entering twice
    makes one session, not two. *)
Theorem enter_twice_is_enter_once self c st :
  clients st !! self = Some c →
  ∃ st1,
    __enter__ (ExcClass := ExcClass) self st = (Return self, st1) ∧
    __enter__ (ExcClass := ExcClass) self st1 = (Return self, st1) ∧
    (session c ≠ None → st1 = st).
Proof.
  intros Hc. destruct (session c) as [r|] eqn:Hr.
  - exists st. by rewrite (enter_keeps _ _ _ _ Hc Hr).
  - eexists. split_and!; [by apply enter_creates| |done].
    apply (enter_keeps self
             (mkAPICore (_auth c) (Some (length (sessions st))))
             (length (sessions st))); [|done].
    cbn. apply list_lookup_insert_eq. by eapply lookup_lt_Some.
Qed.

(** X13.  A scope does not tell a session it made from one it was given: on
    a client constructed with a session, leaving the block closes that
    session and drops the reference all the same. *)
Theorem scope_closes_supplied_session self c r
    (body : nat → @M ExcClass unit) o st st2 c2 r2 x2 :
  clients st !! self = Some c →
  session c = Some r →
  body self st = (o, st2) →
  clients st2 !! self = Some c2 →
  session c2 = Some r2 →
  sessions st2 !! r2 = Some x2 →
  with_ (ExcClass := ExcClass) self body st =
    (o, mkStore (<[self := mkAPICore (_auth c2) None]> (clients st2))
                (<[r2 := mkSession (sess_auth x2) true]> (sessions st2))
                (wire st2)).
Proof.
  intros Hc Hr Hbody Hc2 Hr2 Hx2.
  apply (with_runs_exit self body o st st st2 c2 r2 x2); try done.
  by apply (enter_keeps _ _ _ _ Hc Hr).
Qed.

(** X14.  Scopes on one client do not nest.  The inner block's exit closes
    the session and clears the reference, so the outer exit finds [None]
    and raises [AttributeError]; if the body had raised, that exception
    is replaced. *)
Theorem nested_scope_fails_on_outer_exit self c
    (body : nat → @M ExcClass unit) o st st2 c2 r2 x2 :
  clients st !! self = Some c →
  session c = None →
  body self
    (mkStore (<[self := mkAPICore (_auth c) (Some (length (sessions st)))]>
                (clients st))
             (sessions st ++ [mkSession VNone false]) (wire st)) = (o, st2) →
  clients st2 !! self = Some c2 →
  session c2 = Some r2 →
  sessions st2 !! r2 = Some x2 →
  with_ (ExcClass := ExcClass) self (λ x, with_ x body) st =
    (Raise (AttributeError "'NoneType' object has no attribute 'close'"),
     mkStore (<[self := mkAPICore (_auth c2) None]> (clients st2))
             (<[r2 := mkSession (sess_auth x2) true]> (sessions st2))
             (wire st2)).
Proof.
  intros Hc Hnone Hbody Hc2 Hr2 Hx2.
  pose proof (lookup_lt_Some _ _ _ Hc) as Hlt.
  pose proof (lookup_lt_Some _ _ _ Hc2) as Hlt2.
  unfold with_ at 1. run_M. rewrite (enter_creates _ _ _ Hc Hnone).
  erewrite (with_runs_exit self body o _ _ st2 c2 r2 x2); [|  |done..].
  2:{ apply (enter_keeps self
               (mkAPICore (_auth c) (Some (length (sessions st))))
               (length (sessions st))); [|done].
      cbn. by apply list_lookup_insert_eq. }
  cbn [fst snd].
  assert (∀ exc,
            __exit__ (ExcClass := ExcClass) self exc
              (mkStore (<[self := mkAPICore (_auth c2) None]> (clients st2))
                 (<[r2 := mkSession (sess_auth x2) true]> (sessions st2))
                 (wire st2)) =
            (Raise (AttributeError "'NoneType' object has no attribute 'close'"),
             mkStore (<[self := mkAPICore (_auth c2) None]> (clients st2))
               (<[r2 := mkSession (sess_auth x2) true]> (sessions st2))
               (wire st2))) as Hexit.
  { intros exc. unfold __exit__. run_M.
    rewrite (the_client_lookup self (mkAPICore (_auth c2) None)); [done|].
    cbn. by apply list_lookup_insert_eq. }
  destruct o as [[]|e]; by rewrite Hexit.
Qed.

(** X15.  A session shared by two clients is one object: when one client
    leaves its scope the session is closed for the other as well, which
    still refers to it. *)
Theorem exit_closes_shared_session self other c c' r x exc st :
  self ≠ other →
  clients st !! self = Some c →
  clients st !! other = Some c' →
  session c = Some r →
  session c' = Some r →
  sessions st !! r = Some x →
  ∃ st',
    __exit__ (ExcClass := ExcClass) self exc st = (Return VNone, st') ∧
    clients st' !! other = Some c' ∧
    sessions st' !! r = Some (mkSession (sess_auth x) true).
Proof.
  intros Hne Hc Hc' Hr Hr' Hx. eexists.
  split_and!; [by eapply exit_closes| |]; cbn.
  - by rewrite list_lookup_insert_ne.
  - apply list_lookup_insert_eq. by eapply lookup_lt_Some.
Qed.

(** *** The endpoints *)

Lemma auth_frame self a st w :
  auth (ExcClass := ExcClass) self st = (Return a, st) →
  auth (ExcClass := ExcClass) self (mkStore (clients st) (sessions st) w) =
    (Return a, mkStore (clients st) (sessions st) w).
Proof.
  unfold auth, the_client, the_session. run_M. cbn.
  destruct (clients st !! self) as [c|]; [|done].
  destruct (session c) as [r|]; [|by intros [= ->]].
  destruct (truthy (_auth c)); [by intros [= ->]|]. cbn.
  destruct (sessions st !! r); [by intros [= ->]|done].
Qed.

Lemma check_response_passes self resp d st :
  delivered resp d →
  d !! "status" = Some (VStr "success") →
  _check_response _status_to_exception self resp st = (Return resp, st).
Proof.
  intros [Hwire Hjson] Hstatus.
  unfold _check_response, raise_for_status, json. run_M.
  rewrite Hwire, Hjson. cbn [getitem]. by rewrite Hstatus.
Qed.

Lemma account_info_sends self c a st :
  clients st !! self = Some c →
  auth (ExcClass := ExcClass) self st = (Return a, st) →
  let sent :=
    mkRequest (session c) "GET" (urlfor ["account"; "info"]) []
              (<["auth" := a]> ∅) in
  let st' := mkStore (clients st) (sessions st) (wire st ++ [sent]) in
  account_info transport _status_to_exception urlfor self st =
    match transport sent with
    | Return resp =>
        match _check_response _status_to_exception self resp st' with
        | (Return _, _) => (json resp, st')
        | (Raise e, _) => (Raise e, st')
        end
    | Raise e => (Raise e, st')
    end.
Proof.
  intros Hc Hauth sent st'. unfold account_info. run_M.
  rewrite (make_request_sends _ _ _ _ _ _ _ _ _ Hc Hauth).
  rewrite lookup_empty. cbn [default truthy].
  subst sent st'. destruct (transport _) as [resp|e]; [|done].
  match goal with
  | |- context [_check_response _ self resp ?x] =>
      pose proof (check_response_store _status_to_exception self resp x) as Hst;
      destruct (_check_response _status_to_exception self resp x)
        as [[?|?] ?]
  end; by cbn in Hst; subst.
Qed.

(** X16.  [account_info()] sends one request, a GET to
    [urlfor('account', 'info')] with no parameters, only the resolved
    auth.  A success answer gives the parsed payload; a transport error or
    an error raised by [_check_response] reaches the caller as it is. *)
Theorem account_info_request self c a st :
  clients st !! self = Some c →
  auth (ExcClass := ExcClass) self st = (Return a, st) →
  let sent :=
    mkRequest (session c) "GET" (urlfor ["account"; "info"]) []
              (<["auth" := a]> ∅) in
  let st' := mkStore (clients st) (sessions st) (wire st ++ [sent]) in
  (account_info transport _status_to_exception urlfor self st).2 = st' ∧
  (∀ resp d,
     transport sent = Return resp →
     delivered resp d →
     d !! "status" = Some (VStr "success") →
     account_info transport _status_to_exception urlfor self st =
       (Return (VDict d), st')) ∧
  (∀ e,
     transport sent = Raise e →
     account_info transport _status_to_exception urlfor self st =
       (Raise e, st')) ∧
  (∀ resp e,
     transport sent = Return resp →
     _check_response _status_to_exception self resp st' = (Raise e, st') →
     account_info transport _status_to_exception urlfor self st =
       (Raise e, st')).
Proof.
  intros Hc Hauth sent st'.
  rewrite (account_info_sends _ _ _ _ Hc Hauth). fold sent st'.
  split_and!.
  - destruct (transport sent) as [resp|e]; [|done].
    by destruct (_check_response _ _ _ _) as [[?|?] ?].
  - intros resp d -> Hresp Hstatus.
    rewrite (check_response_passes self resp d st' Hresp Hstatus).
    destruct Hresp as [_ Hjson]. unfold json. by rewrite Hjson.
  - by intros e ->.
  - by intros resp e -> ->.
Qed.

(** X17.  [verify] catches nothing and translates nothing: a transport
    error, and any exception [_check_response] raises for the answer, is
    what the caller of [verify] gets, after exactly one request. *)
Theorem verify_propagates_errors self c a email address_info credits_info
    met st :
  clients st !! self = Some c →
  auth (ExcClass := ExcClass) self st = (Return a, st) →
  let sent :=
    mkRequest (session c) "GET" (urlfor ["single"; "check"]) []
      (<["auth" := a]>
         {["params" :=
             VDict (dict [("email", email);
                          ("address_info", VInt (Z.b2z address_info));
                          ("credits_info", VInt (Z.b2z credits_info));
                          ("max_execution_time", met)])]}) in
  let st' := mkStore (clients st) (sessions st) (wire st ++ [sent]) in
  (∀ e,
     transport sent = Raise e →
     verify transport _status_to_exception urlfor self email
            address_info credits_info met st = (Raise e, st')) ∧
  (∀ resp e,
     transport sent = Return resp →
     _check_response _status_to_exception self resp st' = (Raise e, st') →
     verify transport _status_to_exception urlfor self email
            address_info credits_info met st = (Raise e, st')).
Proof.
  intros Hc Hauth sent st'.
  rewrite (verify_sends _ _ _ _ _ _ _ _ _ _ _ Hc Hauth). fold sent st'.
  split.
  - by intros e ->.
  - by intros resp e -> ->.
Qed.

(** X18.  A client with no auth anywhere is not stopped locally: [verify]
    still sends its request, with [auth=None], and when the server
    answers ['auth_failure'] the caller gets that error with the local
    message ['NeverBounceAPIClient.auth is not set']. *)
Theorem verify_without_auth self c email address_info credits_info met
    resp d cls st :
  clients st !! self = Some c →
  _auth c = VNone →
  session c = None →
  let sent :=
    mkRequest None "GET" (urlfor ["single"; "check"]) []
      (<["auth" := VNone]>
         {["params" :=
             VDict (dict [("email", email);
                          ("address_info", VInt (Z.b2z address_info));
                          ("credits_info", VInt (Z.b2z credits_info));
                          ("max_execution_time", met)])]}) in
  transport sent = Return resp →
  delivered resp d →
  d !! "status" = Some (VStr "auth_failure") →
  _status_to_exception !! "auth_failure" = Some cls →
  verify transport _status_to_exception urlfor self email
         address_info credits_info met st =
    (Raise (APIError cls (VStr "NeverBounceAPIClient.auth is not set")
              (default VNone (d !! "execution_time"))),
     mkStore (clients st) (sessions st) (wire st ++ [sent])).
Proof.
  intros Hc Hown Hnone sent Hsent Hresp Hstatus Hcls.
  assert (auth (ExcClass := ExcClass) self st = (Return VNone, st)) as Hauth.
  { rewrite <-Hown. apply auth_own; [done|by right]. }
  rewrite (verify_sends _ _ _ _ _ _ _ _ _ _ _ Hc Hauth), Hnone.
  fold sent. rewrite Hsent.
  rewrite (check_response_listed _ _ _ _ _ _ _ Hresp Hstatus ltac:(done) Hcls).
  rewrite bool_decide_eq_true_2 by done.
  by rewrite (auth_frame _ _ _ _ Hauth).
Qed.

End More.

(** ** The further properties at sample inputs *)

Lemma check_response_wire_error_first_witness :
  _check_response status_to_exception_spec 0%nat response_server_error
                  store_keyed =
    (Raise (HTTPError 500), store_keyed).
Proof.
  apply (check_response_wire_error_first status_to_exception_spec 0%nat
           response_server_error store_keyed).
  cbn. lia.
Defined.

Lemma check_response_malformed_body_witness :
  _check_response status_to_exception_spec 0%nat response_malformed
                  store_keyed =
    (Raise ValueError, store_keyed).
Proof.
  apply (check_response_malformed_body status_to_exception_spec 0%nat
           response_malformed store_keyed); reflexivity.
Defined.

Lemma check_response_body_not_object_witness :
  _check_response status_to_exception_spec 0%nat response_list store_keyed =
    (Raise TypeError, store_keyed).
Proof.
  apply (check_response_body_not_object status_to_exception_spec 0%nat
           response_list (VList []) store_keyed).
  - reflexivity.
  - reflexivity.
  - discriminate.
Defined.

Lemma check_response_status_not_string_witness :
  _check_response status_to_exception_spec 0%nat
                  (response_of payload_null_status) store_keyed =
    (Raise (KeyError VNone), store_keyed).
Proof.
  apply (check_response_status_not_string status_to_exception_spec 0%nat
           (response_of payload_null_status) payload_null_status VNone
           store_keyed).
  - split; reflexivity.
  - reflexivity.
Defined.

Lemma check_response_returns_only_success_witness :
  response_of payload_success = response_of payload_success ∧
  store_keyed = store_keyed ∧
  ∃ d, delivered (response_of payload_success) d ∧
       d !! "status" = Some (VStr "success").
Proof.
  apply (check_response_returns_only_success status_to_exception_spec 0%nat
           (response_of payload_success) (response_of payload_success)
           store_keyed store_keyed).
  reflexivity.
Defined.

Lemma auth_failure_with_session_auth_witness :
  _check_response status_to_exception_spec 0%nat
                  (response_of payload_auth_failure) store_on_session =
    (Raise (APIError AuthFailure (VStr "Invalid API key") (VInt 12)),
     store_on_session).
Proof.
  apply (auth_failure_with_session_auth status_to_exception_spec 0%nat
           (mkAPICore VNone (Some 0%nat)) 0%nat
           (mkSession (VTuple [VStr "user"; VStr "pass"]) false)
           (response_of payload_auth_failure) payload_auth_failure
           AuthFailure store_on_session); try reflexivity.
  split; reflexivity.
Defined.

Lemma auth_own_strategy_wins_witness :
  auth (ExcClass := APIErrorKind) 0%nat store_keyed_on_session =
    (Return (VStaticTokenAuth (VStr "secret")), store_keyed_on_session).
Proof.
  apply (auth_own_strategy_wins (ExcClass := APIErrorKind) 0%nat
           (mkAPICore (StaticTokenAuth (VStr "secret")) (Some 0%nat))
           (VStr "secret") store_keyed_on_session); reflexivity.
Defined.

Lemma auth_set_then_get_witness :
  ∃ st',
    auth_setter (ExcClass := APIErrorKind) 0%nat (VStr "secret")
                store_on_session = (Return (), st') ∧
    auth (ExcClass := APIErrorKind) 0%nat st' =
      (Return (StaticTokenAuth (VStr "secret")), st').
Proof.
  apply (auth_set_then_get (ExcClass := APIErrorKind) 0%nat
           (mkAPICore VNone (Some 0%nat)) (VStr "secret") store_on_session).
  - reflexivity.
  - discriminate.
Defined.

Lemma auth_delete_falls_back_witness :
  ∃ st',
    auth_deleter (ExcClass := APIErrorKind) 0%nat store_keyed_on_session =
      (Return (), st') ∧
    auth (ExcClass := APIErrorKind) 0%nat st' =
      (Return (VTuple [VStr "user"; VStr "pass"]), st').
Proof.
  destruct (auth_delete_falls_back (ExcClass := APIErrorKind) 0%nat
              (mkAPICore (StaticTokenAuth (VStr "secret")) (Some 0%nat))
              store_keyed_on_session eq_refl)
    as (st' & Hdel & _ & Hsession & _).
  exists st'. split; [exact Hdel|].
  exact (Hsession 0%nat
           (mkSession (VTuple [VStr "user"; VStr "pass"]) false)
           eq_refl eq_refl).
Defined.

Lemma init_then_auth_witness :
  ∃ st',
    __init__ (ExcClass := APIErrorKind) (VStr "secret") (Some 0%nat)
             store_on_session = (Return 1%nat, st') ∧
    clients st' !! 0%nat = Some (mkAPICore VNone (Some 0%nat)) ∧
    auth (ExcClass := APIErrorKind) 1%nat st' =
      (Return (StaticTokenAuth (VStr "secret")), st').
Proof.
  destruct (init_then_auth (ExcClass := APIErrorKind) (VStr "secret")
              (Some 0%nat) store_on_session)
    as (st' & Hinit & Hframe & _ & _ & Hauth); [discriminate|].
  exists st'. split_and!; [exact Hinit| |exact Hauth].
  exact (Hframe 0%nat (mkAPICore VNone (Some 0%nat)) eq_refl).
Defined.

Lemma enter_twice_is_enter_once_witness :
  ∃ st1,
    __enter__ (ExcClass := APIErrorKind) 0%nat store_bare =
      (Return 0%nat, st1) ∧
    __enter__ (ExcClass := APIErrorKind) 0%nat st1 = (Return 0%nat, st1).
Proof.
  destruct (enter_twice_is_enter_once (ExcClass := APIErrorKind) 0%nat
              (mkAPICore VNone None) store_bare eq_refl)
    as (st1 & Hfirst & Hsecond & _).
  exists st1. split; [exact Hfirst | exact Hsecond].
Defined.

Lemma scope_closes_supplied_session_witness :
  with_ 0%nat body_returns store_on_session =
    (Return (),
     mkStore [mkAPICore VNone None]
             [mkSession (VTuple [VStr "user"; VStr "pass"]) true] []).
Proof.
  apply (scope_closes_supplied_session 0%nat
           (mkAPICore VNone (Some 0%nat)) 0%nat body_returns (Return ())
           store_on_session store_on_session
           (mkAPICore VNone (Some 0%nat)) 0%nat
           (mkSession (VTuple [VStr "user"; VStr "pass"]) false));
    reflexivity.
Defined.

Lemma nested_scope_fails_on_outer_exit_witness :
  with_ 0%nat (λ x, with_ x body_returns) store_bare =
    (Raise (AttributeError "'NoneType' object has no attribute 'close'"),
     mkStore [mkAPICore VNone None] [mkSession VNone true] []).
Proof.
  apply (nested_scope_fails_on_outer_exit 0%nat (mkAPICore VNone None)
           body_returns (Return ()) store_bare
           (mkStore [mkAPICore VNone (Some 0%nat)] [mkSession VNone false] [])
           (mkAPICore VNone (Some 0%nat)) 0%nat (mkSession VNone false));
    reflexivity.
Defined.

Lemma exit_closes_shared_session_witness :
  ∃ st',
    __exit__ (ExcClass := APIErrorKind) 0%nat None store_shared =
      (Return VNone, st') ∧
    clients st' !! 1%nat =
      Some (mkAPICore (StaticTokenAuth (VStr "secret")) (Some 0%nat)) ∧
    sessions st' !! 0%nat = Some (mkSession VNone true).
Proof.
  apply (exit_closes_shared_session (ExcClass := APIErrorKind) 0%nat 1%nat
           (mkAPICore VNone (Some 0%nat))
           (mkAPICore (StaticTokenAuth (VStr "secret")) (Some 0%nat))
           0%nat (mkSession VNone false) None store_shared);
    try reflexivity.
  discriminate.
Defined.

Lemma account_info_request_witness :
  (account_info sample_transport status_to_exception_spec sample_urlfor
                0%nat store_keyed).1 =
    Return (VDict payload_success).
Proof.
  destruct (account_info_request sample_transport status_to_exception_spec
              sample_urlfor 0%nat
              (mkAPICore (StaticTokenAuth (VStr "secret")) None)
              (StaticTokenAuth (VStr "secret")) store_keyed eq_refl eq_refl)
    as (_ & Hok & _).
  rewrite (Hok (response_of payload_success) payload_success eq_refl
             (conj eq_refl eq_refl) eq_refl).
  reflexivity.
Defined.

Lemma verify_propagates_errors_witness :
  (verify transport_down status_to_exception_spec sample_urlfor 0%nat
          (VStr "test@example.com") false false (VInt 30) store_keyed).1 =
    Raise ConnectionError ∧
  (verify transport_rejects status_to_exception_spec sample_urlfor 0%nat
          (VStr "test@example.com") false false (VInt 30) store_keyed).1 =
    Raise (APIError AuthFailure (VStr "Invalid API key") (VInt 12)).
Proof.
  split.
  - destruct (verify_propagates_errors transport_down
                status_to_exception_spec sample_urlfor 0%nat
                (mkAPICore (StaticTokenAuth (VStr "secret")) None)
                (StaticTokenAuth (VStr "secret")) (VStr "test@example.com")
                false false (VInt 30) store_keyed eq_refl eq_refl)
      as [Hdown _].
    rewrite (Hdown ConnectionError eq_refl). reflexivity.
  - destruct (verify_propagates_errors transport_rejects
                status_to_exception_spec sample_urlfor 0%nat
                (mkAPICore (StaticTokenAuth (VStr "secret")) None)
                (StaticTokenAuth (VStr "secret")) (VStr "test@example.com")
                false false (VInt 30) store_keyed eq_refl eq_refl)
      as [_ Hcheck].
    rewrite (Hcheck (response_of payload_auth_failure)
               (APIError AuthFailure (VStr "Invalid API key") (VInt 12))
               eq_refl eq_refl).
    reflexivity.
Defined.

Lemma verify_without_auth_witness :
  (verify transport_rejects status_to_exception_spec sample_urlfor 0%nat
          (VStr "test@example.com") false false (VInt 30) store_bare).1 =
    Raise (APIError AuthFailure (VStr "NeverBounceAPIClient.auth is not set")
             (VInt 12)).
Proof.
  rewrite (verify_without_auth transport_rejects status_to_exception_spec
             sample_urlfor 0%nat (mkAPICore VNone None)
             (VStr "test@example.com") false false (VInt 30)
             (response_of payload_auth_failure) payload_auth_failure
             AuthFailure store_bare eq_refl eq_refl eq_refl eq_refl
             (conj eq_refl eq_refl) eq_refl eq_refl).
  reflexivity.
Defined.
